(** * Parametric box synthesis of 3d-box (src/lib/cad.ts, src/lib/params.ts)

    Shallow embedding of the solid-synthesis pipeline.  JavaScript numbers
    are modelled as exact rationals [Q]; the geometry kernel (OpenCascade)
    is modelled symbolically: each kernel call the pipeline makes becomes a
    constructor of [solid], so a build evaluates to the term of kernel calls
    it issues.  The only kernel outcome the control flow branches on inside
    the modelled functions is whether a planar face can be built from a
    wire (the try/catch in [buildRoundedRectPrism]); it is a section
    variable [makeFaceFromWire_ok]. *)

From Stdlib Require Import QArith Qabs Qround Lqa Lia List String Ascii Bool.
From Stdlib Require Strings.BinaryString.
Import ListNotations.

Open Scope Q_scope.
Set Warnings "-register-all".

(** ** JavaScript helpers *)

(** [Math.min] / [Math.max] on two finite numbers. *)
Definition Math_min (a b : Q) : Q := if Qle_bool a b then a else b.
Definition Math_max (a b : Q) : Q := if Qle_bool a b then b else a.

(** [Math.sqrt(2)] is the double 1.4142135623730951, the dyadic rational
    6369051672525773 / 2^52. *)
Definition Math_sqrt_2 : Q := 6369051672525773 # 4503599627370496.

(** ** Parameters (params.ts) *)

(** [ShapeType] is declared as ["box"]; [cad.ts] also tests for
    ["cylinder"], so both tags are modelled. *)
Inductive ShapeType := box | cylinder.
Inductive ThicknessMode := uniform | custom.

Definition ShapeType_eqb (a b : ShapeType) : bool :=
  match a, b with
  | box, box | cylinder, cylinder => true
  | _, _ => false
  end.

Record ShapeParams := {
  shape : ShapeType;
  includeLid : bool;
  insideWidth : Q;
  insideDepth : Q;
  insideHeight : Q;
  includeInsideRadius : bool;
  insideRadius : Q;
  thicknessMode : ThicknessMode;
  thickness : Q;
  wallThickness : Q;
  topThickness : Q;
  bottomThickness : Q;
  clearance : Q
}.

Definition defaultParams : ShapeParams := {|
  shape := box;
  includeLid := true;
  insideWidth := 10;
  insideDepth := 10;
  insideHeight := 10;
  includeInsideRadius := true;
  insideRadius := 25 # 10;
  thicknessMode := uniform;
  thickness := 167 # 100;
  wallThickness := 167 # 100;
  topThickness := 167 # 100;
  bottomThickness := 167 # 100;
  clearance := 2 # 10
|}.

(** ** Kernel objects *)

Record pnt := Pnt { pX : Q; pY : Q; pZ : Q }.

Inductive edge :=
| EdgeLine (p1 p2 : pnt)            (* makeEdgeLine *)
| EdgeArc (p1 pmid p2 : pnt).       (* makeEdgeArc: three-point arc *)

Definition wire := list edge.

Inductive solid :=
| SBox (p1 p2 : pnt)                (* BRepPrimAPI_MakeBox between two corners *)
| SPrism (w : wire) (height : Q)    (* face of [w] extruded by (0, 0, height) *)
| SPipe (w : wire) (height z : Q)   (* [w] swept along (0,0,z)-(0,0,z+height) *)
| SCylinder (radius height : Q)     (* makeCylinder: axis Z at the origin *)
| SCut (outer inner : solid)        (* BRepAlgoAPI_Cut *)
| STranslate (s : solid) (x y z : Q)
| SCompound (l : list solid).

(** The exchange file written by [writeStep]: its byte layout belongs to
    the kernel's writer, so the file is represented by the shape written. *)
Inductive step_file := StepFile (s : solid).

Definition writeStep (s : solid) : step_file := StepFile s.

Definition makePnt (x y z : Q) : pnt := Pnt x y z.

(** [makeBoxAt] as built by a kernel that accepts one of the two positioned
    constructor forms ([new Ctor(p1, p2)] or [new Ctor(p1, w, d, h)]).  The
    source's last resort [new Ctor(width, depth, height)] ignores [x, y, z]
    and builds at the origin; the whole try chain, with that case, is
    [makeBoxAtK] below. *)
Definition makeBoxAt (x y z width depth height : Q) : solid :=
  SBox (makePnt x y z) (makePnt (x + width) (y + depth) (z + height)).

Definition translateShape (s : solid) (x y z : Q) : solid := STranslate s x y z.

Definition makeCylinderAt (radius height x y z : Q) : solid :=
  let cyl := SCylinder radius height in
  if Qeq_bool x 0 && Qeq_bool y 0 && Qeq_bool z 0 then cyl
  else translateShape cyl x y z.

Definition cutShape (outer inner : solid) : solid := SCut outer inner.

Definition makeCompound (shapes : list solid) : solid := SCompound shapes.

(** ** Thickness resolution *)

Record Thickness := { wall : Q; top : Q; bottom : Q }.

Definition resolveThickness (params : ShapeParams) : Thickness :=
  match thicknessMode params with
  | uniform => {| wall := thickness params; top := thickness params;
                  bottom := thickness params |}
  | custom => {| wall := wallThickness params; top := topThickness params;
                 bottom := bottomThickness params |}
  end.

(** ** Profile builder and rounded prism *)

Definition clampRadius (radius maxRadius : Q) : Q :=
  let limit := Math_max 0 (maxRadius - (1 # 100)) in
  Math_min radius limit.

(** The eight edges of the rounded rectangle, in the order of the source:
    line, arc, line, arc, line, arc, line, arc. *)
Definition roundedRectWire (x y z width depth r : Q) : wire :=
  let x0 := x in
  let x1 := x + width in
  let y0 := y in
  let y1 := y + depth in
  let p1 := makePnt (x0 + r) y0 z in
  let p2 := makePnt (x1 - r) y0 z in
  let p3 := makePnt x1 (y0 + r) z in
  let p4 := makePnt x1 (y1 - r) z in
  let p5 := makePnt (x1 - r) y1 z in
  let p6 := makePnt (x0 + r) y1 z in
  let p7 := makePnt x0 (y1 - r) z in
  let p8 := makePnt x0 (y0 + r) z in
  let diag := r / Math_sqrt_2 in
  let midTR := makePnt (x1 - r + diag) (y0 + r - diag) z in
  let midBR := makePnt (x1 - r + diag) (y1 - r + diag) z in
  let midBL := makePnt (x0 + r - diag) (y1 - r + diag) z in
  let midTL := makePnt (x0 + r - diag) (y0 + r - diag) z in
  [ EdgeLine p1 p2; EdgeArc p2 midTR p3;
    EdgeLine p3 p4; EdgeArc p4 midBR p5;
    EdgeLine p5 p6; EdgeArc p6 midBL p7;
    EdgeLine p7 p8; EdgeArc p8 midTL p1 ].

Section Kernel.

(** Whether [makeFaceFromWire] succeeds on a wire in the loaded kernel. *)
Variable makeFaceFromWire_ok : wire -> bool.

(** [buildRoundedRectPrism] after the line [const r = clampRadius(...)]. *)
Definition roundedRectPrismClamped (x y z width depth height r : Q) : solid :=
  if Qle_bool r 0 then makeBoxAt x y z width depth height
  else
    let coreWidth := width - r * 2 in
    let coreDepth := depth - r * 2 in
    if Qle_bool coreWidth 0 || Qle_bool coreDepth 0 then
      makeBoxAt x y z width depth height
    else
      let w := roundedRectWire x y z width depth r in
      if makeFaceFromWire_ok w then SPrism w height   (* makePrism(face) *)
      else SPipe w height z.                          (* makePipeFromWire *)

Definition buildRoundedRectPrism (x y z width depth height radius : Q) : solid :=
  let maxRadius := Math_min width depth / 2 in
  let r := clampRadius radius maxRadius in
  roundedRectPrismClamped x y z width depth height r.

Definition buildBox (params : ShapeParams) : solid :=
  let t := resolveThickness params in
  let topThickness := 0 in
  let outerWidth := insideWidth params + wall t * 2 in
  let outerDepth := insideDepth params + wall t * 2 in
  let outerHeight := insideHeight params + bottom t + topThickness in
  let innerRadius := if includeInsideRadius params then insideRadius params else 0 in
  let inner := buildRoundedRectPrism (wall t) (wall t) (bottom t)
                 (insideWidth params) (insideDepth params) (insideHeight params)
                 innerRadius in
  let outerRadius :=
    if includeInsideRadius params then insideRadius params + wall t else 0 in
  let outerShell := buildRoundedRectPrism 0 0 0 outerWidth outerDepth outerHeight
                      outerRadius in
  cutShape outerShell inner.

Definition buildCylinder (params : ShapeParams) : solid :=
  let t := resolveThickness params in
  let topThickness := if includeLid params then 0 else top t in
  let innerRadius := insideWidth params / 2 in
  let outerRadius := innerRadius + wall t in
  let outerHeight := insideHeight params + bottom t + topThickness in
  let inner := makeCylinderAt innerRadius (insideHeight params) 0 0 (bottom t) in
  let outer := makeCylinderAt outerRadius outerHeight 0 0 0 in
  cutShape outer inner.

Definition buildRoundedInnerTool (params : ShapeParams) : option solid :=
  let t := resolveThickness params in
  if negb (includeInsideRadius params) then None
  else Some (buildRoundedRectPrism (wall t) (wall t) (bottom t)
               (insideWidth params) (insideDepth params) (insideHeight params)
               (insideRadius params)).

Record Footprint := { fpWidth : Q; fpDepth : Q }.

Definition buildLid (params : ShapeParams) (baseOuter : Footprint) : solid :=
  let t := resolveThickness params in
  let clearance := clearance params in
  let innerWidth := fpWidth baseOuter + clearance * 2 in
  let innerDepth := fpDepth baseOuter + clearance * 2 in
  let lidHeight := insideHeight params + bottom t + top t in
  let outerWidth := innerWidth + wall t * 2 in
  let outerDepth := innerDepth + wall t * 2 in
  if ShapeType_eqb (shape params) cylinder then
    let innerRadius := innerWidth / 2 in
    let outerRadius := innerRadius + wall t in
    let outer := makeCylinderAt outerRadius lidHeight 0 0 0 in
    let inner := makeCylinderAt innerRadius (lidHeight - top t) 0 0 0 in
    let lid := cutShape outer inner in
    translateShape lid (- (clearance + wall t)) (- (clearance + wall t)) 0
  else
    let baseOuterRadius :=
      if includeInsideRadius params then insideRadius params + wall t else 0 in
    let innerRadius := baseOuterRadius + clearance in
    let outerRadius := innerRadius + wall t in
    let outer := buildRoundedRectPrism 0 0 0 outerWidth outerDepth lidHeight
                   outerRadius in
    let inner := buildRoundedRectPrism (wall t) (wall t) 0 innerWidth innerDepth
                   (lidHeight - top t) innerRadius in
    let lid := cutShape outer inner in
    translateShape lid (- (clearance + wall t)) (- (clearance + wall t)) 0.

Definition buildStepFile (params : ShapeParams) : step_file :=
  let base := if ShapeType_eqb (shape params) cylinder then buildCylinder params
              else buildBox params in
  if negb (includeLid params) then writeStep base
  else
    let t := resolveThickness params in
    let baseOuterWidth := insideWidth params + wall t * 2 in
    let baseOuterDepth :=
      if ShapeType_eqb (shape params) cylinder then baseOuterWidth
      else insideDepth params + wall t * 2 in
    let baseOuter := {| fpWidth := baseOuterWidth; fpDepth := baseOuterDepth |} in
    let lid := buildLid params baseOuter in
    let compound := makeCompound [base; lid] in
    writeStep compound.

Definition buildDebugInnerTool (params : ShapeParams) : option step_file :=
  if negb (ShapeType_eqb (shape params) box) || negb (includeInsideRadius params)
  then None
  else
    match buildRoundedInnerTool params with
    | None => None
    | Some tool => Some (writeStep tool)
    end.

End Kernel.

(** ** Diagnostic trace (cad.ts [debugLog], App.tsx failure report) *)

Record DebugEntry := { label : string; payload : option string; time : string }.

(** [window.__cadDebug]: [None] while undefined.  [hasWindow] is
    [typeof window !== "undefined"]; [now] is [new Date().toISOString()].
    The console output is not modelled. *)
Definition debugLog (hasWindow : bool) (lbl : string) (pl : option string)
    (now : string) (cadDebug : option (list DebugEntry)) : option (list DebugEntry) :=
  if hasWindow then
    let tr := match cadDebug with None => [] | Some l => l end in
    Some (tr ++ [ {| label := lbl; payload := pl; time := now |} ])
  else cadDebug.

(** A sequence of [debugLog] calls, each given as (label, payload, time). *)
Definition runDebugLogs (hasWindow : bool) (calls : list (string * option string * string))
    (cadDebug : option (list DebugEntry)) : option (list DebugEntry) :=
  fold_left (fun st c => let '(l, p, n) := c in debugLog hasWindow l p n st)
    calls cadDebug.

(** [Array.prototype.slice(-k)] for [k > 0]. *)
Definition sliceLast (k : nat) {A} (l : list A) : list A :=
  skipn (List.length l - k) l.

(** The catch block of [handleGenerate] in App.tsx: when the trace is non
    empty, the entries shown are [win.__cadDebug.slice(-40)]. *)
Definition failureReport (cadDebug : option (list DebugEntry)) : option (list DebugEntry) :=
  match cadDebug with
  | Some ((_ :: _) as l) => Some (sliceLast 40 l)
  | _ => None
  end.

(** ** Observations on the built terms *)

Definition edge_start (e : edge) : pnt :=
  match e with EdgeLine p _ | EdgeArc p _ _ => p end.

Definition edge_end (e : edge) : pnt :=
  match e with EdgeLine _ q | EdgeArc _ _ q => q end.

Definition is_line (e : edge) : bool :=
  match e with EdgeLine _ _ => true | EdgeArc _ _ _ => false end.

(** Consecutive edges meet end to start. *)
Fixpoint chained (w : wire) : Prop :=
  match w with
  | e1 :: ((e2 :: _) as rest) => edge_end e1 = edge_start e2 /\ chained rest
  | _ => True
  end.

Definition closed_wire (w : wire) : Prop :=
  chained w /\
  match w with
  | [] => False
  | e :: _ => edge_end (last w e) = edge_start e
  end.

(** Straight edges: axis aligned in the plane of the profile. *)
Definition line_axis_aligned (e : edge) : Prop :=
  match e with
  | EdgeLine p q => (pX p == pX q \/ pY p == pY q) /\ pZ p == pZ q
  | EdgeArc _ _ _ => True
  end.

(** Lengths of the straight edges, in wire order (for an axis-aligned
    segment, |dx| + |dy| is its length). *)
Definition line_lengths (w : wire) : list Q :=
  flat_map (fun e => match e with
                     | EdgeLine p q => [Qabs (pX q - pX p) + Qabs (pY q - pY p)]
                     | EdgeArc _ _ _ => []
                     end) w.

(** The wire a prism or pipe was built from; [None] for the other solids
    (in particular for the plain box of [makeBoxAt]). *)
Definition profile_wire (s : solid) : option wire :=
  match s with
  | SPrism w _ => Some w
  | SPipe w _ _ => Some w
  | _ => None
  end.

(** Rounded profile of a [width] x [depth] rectangle with corner radius [r]:
    eight edges line, arc, ..., closed, straight runs of the right length. *)
Definition rounded_profile (s : solid) (width depth r : Q) : Prop :=
  exists w, profile_wire s = Some w /\
    List.length w = 8%nat /\
    map is_line w = [true; false; true; false; true; false; true; false] /\
    closed_wire w /\
    Forall line_axis_aligned w /\
    Forall2 Qeq (line_lengths w)
      [width - 2 * r; depth - 2 * r; width - 2 * r; depth - 2 * r].

(** Vertical extent [(zmin, zmax)] of a primitive solid, shifted by
    translations. *)
Fixpoint z_range (s : solid) : option (Q * Q) :=
  match s with
  | SBox p1 p2 => Some (pZ p1, pZ p2)
  | SPrism w h =>
      match w with
      | e :: _ => Some (pZ (edge_start e), pZ (edge_start e) + h)
      | [] => None
      end
  | SPipe _ h z => Some (z, z + h)
  | SCylinder _ h => Some (0, h)
  | STranslate s' _ _ dz =>
      match z_range s' with
      | Some (a, b) => Some (a + dz, b + dz)
      | None => None
      end
  | _ => None
  end.

Definition range_eq (o : option (Q * Q)) (lo hi : Q) : Prop :=
  match o with Some (a, b) => a == lo /\ b == hi | None => False end.

(** Vertical extent of the minuend of a cut shell. *)
Definition outer_z_range (s : solid) : option (Q * Q) :=
  match s with SCut o _ => z_range o | _ => None end.

(** The trace entry a [debugLog] call appends, from (label, payload, time). *)
Definition toEntry (c : string * option string * string) : DebugEntry :=
  let '(l, pl, n) := c in {| label := l; payload := pl; time := n |}.

(** [defaultParams] with the lid switched off. *)
Definition noLidParams : ShapeParams :=
  {| shape := box; includeLid := false; insideWidth := 10; insideDepth := 10;
     insideHeight := 10; includeInsideRadius := true; insideRadius := 25 # 10;
     thicknessMode := uniform; thickness := 167 # 100;
     wallThickness := 167 # 100; topThickness := 167 # 100;
     bottomThickness := 167 # 100; clearance := 2 # 10 |}.


(** A kernel build in which planar faces are always constructed. *)
Definition face_always (_ : wire) : bool := true.

(** ** URL state (params.ts) *)

(** A [URLSearchParams] object as its ordered list of entries.  Turning a
    search string into entries and back (percent-encoding) is the browser's
    and is not modelled; [parseParams] and [paramsToSearch] are stated on
    the entries. *)
Definition URLSearchParams := list (string * string).

(** [query.get(k)]: the first value for [k], [null] when absent. *)
Definition usp_get (k : string) (q : URLSearchParams) : option string :=
  match find (fun kv => String.eqb (fst kv) k) q with
  | Some (_, v) => Some v
  | None => None
  end.

(** [query.set(k, v)]: replaces the first entry for [k] and drops the
    others; appends when there is none. *)
Fixpoint usp_set_aux (k v : string) (seen : bool) (q : URLSearchParams) : URLSearchParams :=
  match q with
  | [] => []
  | (k', v') :: r =>
      if String.eqb k' k then
        if seen then usp_set_aux k v seen r else (k, v) :: usp_set_aux k v true r
      else (k', v') :: usp_set_aux k v seen r
  end.

Definition usp_set (k v : string) (q : URLSearchParams) : URLSearchParams :=
  if existsb (fun kv => String.eqb (fst kv) k) q then usp_set_aux k v false q
  else q ++ [(k, v)].

(** [query.delete(k)]. *)
Definition usp_delete (k : string) (q : URLSearchParams) : URLSearchParams :=
  filter (fun kv => negb (String.eqb (fst kv) k)) q.

(** [Math.round]: the nearest integer, halves rounded up. *)
Definition Math_round (x : Q) : Q := inject_Z (Qfloor (x + (1 # 2))).

(** In exact rational arithmetic: the source computes with IEEE doubles,
    whose product and quotient round (and may overflow to [Infinity]). *)
Definition roundTo (value : Q) (digits : nat) : Q :=
  let factor := inject_Z (10 ^ Z.of_nat digits) in
  Math_round (value * factor) / factor.

Definition ThicknessMode_eqb (a b : ThicknessMode) : bool :=
  match a, b with
  | uniform, uniform | custom, custom => true
  | _, _ => false
  end.

(** The query keys [parseParams] reads. *)
Definition paramKeys : list string :=
  ["tmode"; "lid"; "w"; "d"; "h"; "radius"; "r"; "t"; "tw"; "tt"; "tb"; "c"]%string.

Section UrlState.

(** [Number(s)] when it is finite; [None] for NaN and the infinities. *)
Variable Number : string -> option Q.
(** [Number.prototype.toString]. *)
Variable toString : Q -> string.

Definition readNumber (value : option string) (fallback : Q) : Q :=
  match value with
  | None => fallback
  | Some s => match Number s with Some parsed => parsed | None => fallback end
  end.

Definition readBoolean (value : option string) (fallback : bool) : bool :=
  match value with
  | None => fallback
  | Some s => String.eqb s "1" || String.eqb s "true"
  end.

Definition parseParams (query : URLSearchParams) : ShapeParams :=
  let defaultMode := thicknessMode defaultParams in
  let thicknessMode := usp_get "tmode" query in
  {| shape := shape defaultParams;
     includeLid := readBoolean (usp_get "lid" query) (includeLid defaultParams);
     insideWidth := readNumber (usp_get "w" query) (insideWidth defaultParams);
     insideDepth := readNumber (usp_get "d" query) (insideDepth defaultParams);
     insideHeight := readNumber (usp_get "h" query) (insideHeight defaultParams);
     includeInsideRadius :=
       readBoolean (usp_get "radius" query) (includeInsideRadius defaultParams);
     insideRadius := readNumber (usp_get "r" query) (insideRadius defaultParams);
     thicknessMode :=
       match thicknessMode with
       | Some s => if String.eqb s "custom" then custom else defaultMode
       | None => defaultMode
       end;
     thickness := readNumber (usp_get "t" query) (thickness defaultParams);
     wallThickness := readNumber (usp_get "tw" query) (wallThickness defaultParams);
     topThickness := readNumber (usp_get "tt" query) (topThickness defaultParams);
     bottomThickness := readNumber (usp_get "tb" query) (bottomThickness defaultParams);
     clearance := readNumber (usp_get "c" query) (clearance defaultParams) |}.

(** One numeric field of [paramsToSearch]: [if (x !== d) query.set(k, roundTo(x).toString())]. *)
Definition setNumber (k : string) (x d : Q) (q : URLSearchParams) : URLSearchParams :=
  if negb (Qeq_bool x d) then usp_set k (toString (roundTo x 3)) q else q.

Definition paramsToSearch (params : ShapeParams) : URLSearchParams :=
  let q := [] in
  let q := usp_delete "shape" q in
  let q := if negb (Bool.eqb (includeLid params) (includeLid defaultParams))
           then usp_set "lid" (if includeLid params then "1" else "0") q else q in
  let q := setNumber "w" (insideWidth params) (insideWidth defaultParams) q in
  let q := setNumber "d" (insideDepth params) (insideDepth defaultParams) q in
  let q := setNumber "h" (insideHeight params) (insideHeight defaultParams) q in
  let q := if negb (Bool.eqb (includeInsideRadius params)
                              (includeInsideRadius defaultParams))
           then usp_set "radius" (if includeInsideRadius params then "1" else "0") q
           else q in
  let q := setNumber "r" (insideRadius params) (insideRadius defaultParams) q in
  let q := if negb (ThicknessMode_eqb (thicknessMode params)
                                      (thicknessMode defaultParams))
           then usp_set "tmode" (match thicknessMode params with
                                 | uniform => "uniform" | custom => "custom" end) q
           else q in
  let q := setNumber "t" (thickness params) (thickness defaultParams) q in
  let q := setNumber "tw" (wallThickness params) (wallThickness defaultParams) q in
  let q := setNumber "tt" (topThickness params) (topThickness defaultParams) q in
  let q := setNumber "tb" (bottomThickness params) (bottomThickness defaultParams) q in
  let q := setNumber "c" (clearance params) (clearance defaultParams) q in
  q.

End UrlState.

(** A number encoding used to instantiate [Number] / [toString] in the
    examples below: numerator and denominator in binary, around a slash. *)
Fixpoint splitSlash (s : string) : string * string :=
  match s with
  | EmptyString => (EmptyString, EmptyString)
  | String c r =>
      if Ascii.eqb c "/"%char then (EmptyString, r)
      else let '(a, b) := splitSlash r in (String c a, b)
  end.

Definition refToString (q : Q) : string :=
  (BinaryString.of_Z (Qnum q) ++ "/" ++ BinaryString.of_pos (Qden q))%string.

Definition refNumber (s : string) : option Q :=
  let '(a, b) := splitSlash s in
  Some (BinaryString.to_Z a # BinaryString.to_pos b).

(** The numeric fields of the parameters, in [paramsToSearch] order. *)
Definition numericFields (p : ShapeParams) : list Q :=
  [insideWidth p; insideDepth p; insideHeight p; insideRadius p; thickness p;
   wallThickness p; topThickness p; bottomThickness p; clearance p].

(** Parameters off their defaults in every field kind. *)
Definition sampleParams : ShapeParams :=
  {| shape := box; includeLid := false; insideWidth := 1234567 # 10000;
     insideDepth := 10; insideHeight := 455 # 10; includeInsideRadius := false;
     insideRadius := 1 # 3; thicknessMode := custom; thickness := 167 # 100;
     wallThickness := 2; topThickness := 9999 # 10000; bottomThickness := 167 # 100;
     clearance := 15 # 100 |}.

(** ** Planar extents of the built solids *)

(** The points an edge is built from. *)
Definition edge_points (e : edge) : list pnt :=
  match e with
  | EdgeLine p q => [p; q]
  | EdgeArc p m q => [p; m; q]
  end.

Definition wire_points (w : wire) : list pnt := flat_map edge_points w.

(** An axis-aligned rectangle (xmin, ymin, xmax, ymax). *)
Definition rect := (Q * Q * Q * Q)%type.

(** Bounding rectangle of a list of points. *)
Definition bounds (ps : list pnt) : option rect :=
  match ps with
  | [] => None
  | p :: r =>
      Some (fold_left Math_min (map pX r) (pX p), fold_left Math_min (map pY r) (pY p),
            fold_left Math_max (map pX r) (pX p), fold_left Math_max (map pY r) (pY p))
  end.

Definition shift_rect (o : option rect) (dx dy : Q) : option rect :=
  match o with
  | Some (a, b, c, d) => Some (a + dx, b + dy, c + dx, d + dy)
  | None => None
  end.

(** Planar extent of a primitive solid, shifted by translations: the box
    between its corners, the profile of a prism or pipe (the quarter arcs
    of [roundedRectWire] stay inside the rectangle of their end points and
    midpoints), the disc of a cylinder. *)
Fixpoint xy_range (s : solid) : option rect :=
  match s with
  | SBox p1 p2 =>
      Some (Math_min (pX p1) (pX p2), Math_min (pY p1) (pY p2),
            Math_max (pX p1) (pX p2), Math_max (pY p1) (pY p2))
  | SPrism w _ => bounds (wire_points w)
  | SPipe w _ _ => bounds (wire_points w)
  | SCylinder r _ => Some (- r, - r, r, r)
  | STranslate s' dx dy _ => shift_rect (xy_range s') dx dy
  | _ => None
  end.

Definition rect_eq (o : option rect) (a b c d : Q) : Prop :=
  match o with
  | Some (a', b', c', d') => a' == a /\ b' == b /\ c' == c /\ d' == d
  | None => False
  end.

(** For a cut shell (possibly translated): the planar and vertical extents
    of the solid cut from ([shell_*]) and of the tool cut out ([cavity_*]). *)
Fixpoint shell_xy (s : solid) : option rect :=
  match s with
  | SCut o _ => xy_range o
  | STranslate s' dx dy _ => shift_rect (shell_xy s') dx dy
  | _ => None
  end.

Fixpoint cavity_xy (s : solid) : option rect :=
  match s with
  | SCut _ i => xy_range i
  | STranslate s' dx dy _ => shift_rect (cavity_xy s') dx dy
  | _ => None
  end.

Fixpoint shell_z (s : solid) : option (Q * Q) :=
  match s with
  | SCut o _ => z_range o
  | STranslate s' _ _ dz =>
      match shell_z s' with Some (a, b) => Some (a + dz, b + dz) | None => None end
  | _ => None
  end.

Fixpoint cavity_z (s : solid) : option (Q * Q) :=
  match s with
  | SCut _ i => z_range i
  | STranslate s' _ _ dz =>
      match cavity_z s' with Some (a, b) => Some (a + dz, b + dz) | None => None end
  | _ => None
  end.


(** ** Dimensions shown by the page (App.tsx) *)






(** ** Kernel probing (cad.ts [getCtor], [getCtorByNames], [makeBoxAt]) *)

(** The loaded kernel module [oc] as a lookup of its bindings; [None]
    stands for a missing (falsy) binding. *)

(** [a || b] on such bindings. *)
Definition js_or {A} (a b : option A) : option A :=
  match a with Some _ => a | None => b end.

(** [a ?? b]; [getCtorByNames] returns a constructor or [null]. *)
Definition js_nullish {A} (a b : option A) : option A :=
  match a with Some _ => a | None => b end.

Definition getCtor {A} (oc : string -> option A) (name : string) : option A :=
  js_or (js_or (js_or (js_or (oc name) (oc (name ++ "_1")%string))
                      (oc (name ++ "_2")%string))
               (oc (name ++ "_3")%string))
        (oc (name ++ "_4")%string).

Fixpoint getCtorByNames {A} (oc : string -> option A) (names : list string) : option A :=
  match names with
  | [] => None
  | name :: rest =>
      match oc name with
      | Some ctor => Some ctor
      | None => getCtorByNames oc rest
      end
  end.

(** The constructor lookup of [makeBoxAt]. *)
Definition boxCtor {A} (oc : string -> option A) : option A :=
  js_nullish
    (getCtorByNames oc ["BRepPrimAPI_MakeBox_3"; "BRepPrimAPI_MakeBox_2";
                        "BRepPrimAPI_MakeBox_1"; "BRepPrimAPI_MakeBox"]%string)
    (getCtor oc "BRepPrimAPI_MakeBox"%string).

(** The three argument lists [makeBoxAt] tries on the box constructor. *)
Inductive box_args :=
| BoxCorners (p1 p2 : pnt)                (* new Ctor(p1, p2) *)
| BoxCornerSize (p : pnt) (dx dy dz : Q)  (* new Ctor(p1, width, depth, height) *)
| BoxSize (dx dy dz : Q).                 (* new Ctor(width, depth, height) *)

(** The box each constructor form builds (BRepPrimAPI_MakeBox): the last
    form has its corner at the origin. *)
Definition box_of_args (a : box_args) : solid :=
  match a with
  | BoxCorners p1 p2 => SBox p1 p2
  | BoxCornerSize p dx dy dz => SBox p (Pnt (pX p + dx) (pY p + dy) (pZ p + dz))
  | BoxSize dx dy dz => SBox (Pnt 0 0 0) (Pnt dx dy dz)
  end.

(** [makeBoxAt] with its constructor lookup and its try/catch chain;
    [accepts C a] says whether [new C(...a)] and [.Shape()] succeed.
    [None] is a thrown error. *)
Definition makeBoxAtK {A} (oc : string -> option A) (accepts : A -> box_args -> bool)
    (x y z width depth height : Q) : option solid :=
  match boxCtor oc with
  | None => None
  | Some Ctor =>
      let p1 := makePnt x y z in
      let p2 := makePnt (x + width) (y + depth) (z + height) in
      if accepts Ctor (BoxCorners p1 p2) then Some (box_of_args (BoxCorners p1 p2))
      else if accepts Ctor (BoxCornerSize p1 width depth height) then
        Some (box_of_args (BoxCornerSize p1 width depth height))
      else if accepts Ctor (BoxSize width depth height) then
        Some (box_of_args (BoxSize width depth height))
      else None
  end.

(** A kernel whose box constructor is bound only as [BRepPrimAPI_MakeBox_4]
    and takes only the three sizes. *)
Definition sizeOnlyKernel (name : string) : option unit :=
  if String.eqb name "BRepPrimAPI_MakeBox_4"%string then Some tt else None.

Definition sizeOnlyAccepts (_ : unit) (a : box_args) : bool :=
  match a with BoxSize _ _ _ => true | _ => false end.

(** A box constructor that takes only the two corners. *)
Definition cornersAccepts (_ : unit) (a : box_args) : bool :=
  match a with BoxCorners _ _ => true | _ => false end.

(** ** STEP export loop (cad.ts [writeStep]) *)

(** The in-memory file system of the kernel module ([oc.FS]) as a list of
    (resolved path, contents); [resolvePath] resolves a path against the
    working directory.  Directories are not modelled: [oc.FS.mkdir("/tmp")]
    only makes the first target writable, which the writer's behaviour
    below already accounts for. *)
Definition FileSystem := list (string * string).

Definition fs_lookup (path : string) (fs : FileSystem) : option string :=
  match find (fun kv => String.eqb (fst kv) path) fs with
  | Some (_, data) => Some data
  | None => None
  end.

Definition fs_unlink (path : string) (fs : FileSystem) : FileSystem :=
  filter (fun kv => negb (String.eqb (fst kv) path)) fs.

Definition fs_write (path data : string) (fs : FileSystem) : FileSystem :=
  (path, data) :: fs_unlink path fs.

(** How one [fn.call(writer, variant)] ends: it throws, returns a number,
    or returns something else. *)
Inductive write_outcome := WThrew | WStatus (status : Z) | WOther.

(** What a write call does: the file it leaves at its target, if any, and
    how it ends. *)
Record write_result := { wrote : option string; wout : write_outcome }.

(** The three forms of the target name: the string itself, a
    [TCollection_AsciiString] and a [TCollection_ExtendedString]. *)
Inductive path_variant := VPlain | VAscii | VExt.

(** The kernel's STEP writer after its constructor lookup: whether a
    constructor was found, whether [Transfer] is exposed and whether its
    first and its retried call succeed, whether each string wrapper can be
    built for a target, the indices of the [Write] methods it exposes, and
    the effect of calling one of them on a variant of a target. *)
Record StepWriter := {
  writerFound : bool;
  hasTransfer : bool;
  transferFirst : bool;
  transferRetry : bool;
  asciiVariant : string -> bool;
  extVariant : string -> bool;
  writeFns : list nat;
  writeCall : nat -> path_variant -> string -> write_result
}.

Inductive export_error :=
| WriterNotFound    (* "OpenCascade STEP writer not found." *)
| NoTransfer        (* "OpenCascade STEP writer does not expose Transfer." *)
| TransferThrew     (* the retried [Transfer] call threw *)
| NoOutputFile.     (* "STEP writer did not create output file." *)

Section StepExport.

Variable resolvePath : string -> string.
Variable sw : StepWriter.

Definition variants (target : string) : list path_variant :=
  [VPlain] ++ (if asciiVariant sw target then [VAscii] else [])
           ++ (if extVariant sw target then [VExt] else []).

(** The nested [for] loops of [tryWrite] over (variant, fn) pairs. *)
Fixpoint tryWriteLoop (target : string) (attempts : list (path_variant * nat))
    (fs : FileSystem) : bool * FileSystem :=
  match attempts with
  | [] => (false, fs)
  | (variant, fn) :: rest =>
      let r := writeCall sw fn variant target in
      let fs1 := match wrote r with
                 | Some data => fs_write (resolvePath target) data fs
                 | None => fs
                 end in
      let exists_ := match fs_lookup (resolvePath target) fs1 with
                     | Some _ => true | None => false end in
      match wout r with
      | WThrew => tryWriteLoop target rest fs1
      | WStatus status =>
          if negb (Z.eqb status 1) && negb (Z.eqb status 0) then tryWriteLoop target rest fs1
          else if exists_ then (true, fs1) else tryWriteLoop target rest fs1
      | WOther => if exists_ then (true, fs1) else tryWriteLoop target rest fs1
      end
  end.

Definition tryWrite (target : string) (fs : FileSystem) : bool * FileSystem :=
  tryWriteLoop target (list_prod (variants target) (writeFns sw)) fs.

Definition stepFilenames : list string := ["/tmp/model.step"; "/model.step"; "model.step"]%string.

(** The loop over the file names: unlink, try to write, read back. *)
Fixpoint writeTargets (filenames : list string) (fs : FileSystem) : option string * FileSystem :=
  match filenames with
  | [] => (None, fs)
  | filename :: rest =>
      let fs1 := fs_unlink (resolvePath filename) fs in
      let '(ok, fs2) := tryWrite filename fs1 in
      if ok then (fs_lookup (resolvePath filename) fs2, fs2)
      else writeTargets rest fs2
  end.

(** [writeStep] from the constructor lookup on; [inr] carries the bytes
    read back, [inl] the error thrown. *)
Definition writeStepFS (fs : FileSystem) : (export_error + string) * FileSystem :=
  if negb (writerFound sw) then (inl WriterNotFound, fs)
  else if negb (hasTransfer sw) then (inl NoTransfer, fs)
  else if negb (transferFirst sw || transferRetry sw) then (inl TransferThrew, fs)
  else
    match writeTargets stepFilenames fs with
    | (Some data, fs') => (inr data, fs')
    | (None, fs') => (inl NoOutputFile, fs')
    end.

End StepExport.

(** A writer with one [Write] method that writes [data] and returns 1. *)
Definition simpleWriter (data : string) : StepWriter :=
  {| writerFound := true; hasTransfer := true; transferFirst := true;
     transferRetry := true; asciiVariant := fun _ => true; extVariant := fun _ => true;
     writeFns := [0%nat];
     writeCall := fun _ _ _ => {| wrote := Some data; wout := WStatus 1 |} |}.

(** ** Proofs *)



Lemma Qle_bool_false (a b : Q) : b < a -> Qle_bool a b = false.
Proof.
  intro H. apply not_true_iff_false. rewrite Qle_bool_iff. lra.
Qed.


Lemma rounded_profile_clamped (fok : wire -> bool) (x y z width depth height r : Q) :
  0 < r -> 0 < width - r * 2 -> 0 < depth - r * 2 ->
  rounded_profile (roundedRectPrismClamped fok x y z width depth height r)
    width depth r.
Proof.
  intros Hr Hw Hd. unfold roundedRectPrismClamped.
  rewrite (Qle_bool_false r 0), (Qle_bool_false (width - r * 2) 0),
    (Qle_bool_false (depth - r * 2) 0) by lra. cbn [orb].
  exists (roundedRectWire x y z width depth r). split.
  { destruct (fok _); reflexivity. }
  split; [reflexivity |]. split; [reflexivity |].
  split; [repeat split |].
  split.
  { repeat constructor; cbn; lra. }
  unfold line_lengths, roundedRectWire, makePnt. cbn [flat_map app pX pY].
  repeat constructor.
  - rewrite (Qabs_pos (x + width - r - (x + r))) by lra.
    rewrite (Qabs_pos (y - y)) by lra. lra.
  - rewrite (Qabs_pos (x + width - (x + width))) by lra.
    rewrite (Qabs_pos (y + depth - r - (y + r))) by lra. lra.
  - rewrite (Qabs_neg (x + r - (x + width - r))) by lra.
    rewrite (Qabs_pos (y + depth - (y + depth))) by lra. lra.
  - rewrite (Qabs_pos (x - x)) by lra.
    rewrite (Qabs_neg (y + r - (y + depth - r))) by lra. lra.
Qed.

Lemma rounded_profile_radius_Qeq (s : solid) (width depth r r' : Q) :
  r == r' -> rounded_profile s width depth r -> rounded_profile s width depth r'.
Proof.
  intros Hr (w & Hw & Hl & Hk & Hc & Ha & Hlen). exists w.
  repeat (split; [assumption |]).
  inversion Hlen as [| a1 b1 l1 m1 H1 R1]; subst.
  inversion R1 as [| a2 b2 l2 m2 H2 R2]; subst.
  inversion R2 as [| a3 b3 l3 m3 H3 R3]; subst.
  inversion R3 as [| a4 b4 l4 m4 H4 R4]; subst.
  inversion R4; subst.
  repeat constructor; rewrite <- Hr; assumption.
Qed.

(** C4: the profile builder only ever sees the clamped radius
    [min(radius, max(0, min(width, depth)/2 - 0.01))]; for a 10 x 10
    footprint and radius 20 this is 4.99 and the result is a rounded
    prism, not a rejection. *)
Theorem buildRoundedRectPrism_effective_radius :
  (forall (fok : wire -> bool) (x y z width depth height radius : Q),
     buildRoundedRectPrism fok x y z width depth height radius =
     roundedRectPrismClamped fok x y z width depth height
       (Math_min radius (Math_max 0 (Math_min width depth / 2 - (1 # 100))))) /\
  (clampRadius 20 (Math_min 10 10 / 2) == 499 # 100) /\
  (forall (fok : wire -> bool) (x y z height : Q),
     rounded_profile (buildRoundedRectPrism fok x y z 10 10 height 20) 10 10 (499 # 100)).
Proof.
  split; [reflexivity |]. split; [reflexivity |].
  intros fok x y z height.
  apply rounded_profile_radius_Qeq with (r := clampRadius 20 (Math_min 10 10 / 2));
    [reflexivity |].
  unfold buildRoundedRectPrism.
  apply rounded_profile_clamped; vm_compute; reflexivity.
Qed.







Lemma buildRoundedRectPrism_z_range (fok : wire -> bool) (x y z width depth height radius : Q) :
  z_range (buildRoundedRectPrism fok x y z width depth height radius) = Some (z, z + height).
Proof.
  unfold buildRoundedRectPrism, roundedRectPrismClamped.
  destruct (Qle_bool _ 0); [reflexivity |].
  destruct (_ || _); [reflexivity |].
  destruct (fok _); reflexivity.
Qed.

(** C1: with a lid, the lid's inner cavity is a rounded prism of width
    [(insideWidth + wall * 2) + clearance * 2] and depth
    [(insideDepth + wall * 2) + clearance * 2], i.e. the base's outer
    footprint (the minuend of the base shell) grown by twice the clearance,
    for every clearance. *)
Theorem buildStepFile_lid_inner_footprint (fok : wire -> bool) (p : ShapeParams) :
  shape p = box -> includeLid p = true ->
  let t := resolveThickness p in
  exists baseHeight baseRadius baseInner lidOuter lidHeight lidRadius,
    buildBox fok p =
      SCut (buildRoundedRectPrism fok 0 0 0 (insideWidth p + wall t * 2)
              (insideDepth p + wall t * 2) baseHeight baseRadius) baseInner /\
    buildStepFile fok p =
      StepFile (SCompound
        [buildBox fok p;
         STranslate
           (SCut lidOuter
              (buildRoundedRectPrism fok (wall t) (wall t) 0
                 ((insideWidth p + wall t * 2) + clearance p * 2)
                 ((insideDepth p + wall t * 2) + clearance p * 2)
                 lidHeight lidRadius))
           (- (clearance p + wall t)) (- (clearance p + wall t)) 0]).
Proof.
  intros Hs Hl t. unfold buildStepFile, buildLid. rewrite Hs, Hl. cbn [ShapeType_eqb negb].
  do 6 eexists. split; reflexivity.
Qed.

Lemma buildStepFile_lid_inner_footprint_witness :
  (shape defaultParams = box /\ includeLid defaultParams = true) /\
  let t := resolveThickness defaultParams in
  exists baseHeight baseRadius baseInner lidOuter lidHeight lidRadius,
    buildBox face_always defaultParams =
      SCut (buildRoundedRectPrism face_always 0 0 0
              (insideWidth defaultParams + wall t * 2)
              (insideDepth defaultParams + wall t * 2) baseHeight baseRadius) baseInner /\
    buildStepFile face_always defaultParams =
      StepFile (SCompound
        [buildBox face_always defaultParams;
         STranslate
           (SCut lidOuter
              (buildRoundedRectPrism face_always (wall t) (wall t) 0
                 ((insideWidth defaultParams + wall t * 2) + clearance defaultParams * 2)
                 ((insideDepth defaultParams + wall t * 2) + clearance defaultParams * 2)
                 lidHeight lidRadius))
           (- (clearance defaultParams + wall t)) (- (clearance defaultParams + wall t)) 0]).
Proof.
  split; [split; reflexivity |].
  apply (buildStepFile_lid_inner_footprint face_always defaultParams); reflexivity.
Defined.

(** C2 (as stated, refuted): without a lid the rectangular base's outer
    solid is [insideHeight + bottom] high; the top thickness (1.67 here)
    is not added. *)
Lemma buildBox_no_lid_top_counterexample :
  shape noLidParams = box /\ includeLid noLidParams = false /\
  ~ range_eq (outer_z_range (buildBox face_always noLidParams)) 0
      (insideHeight noLidParams + bottom (resolveThickness noLidParams)
       + top (resolveThickness noLidParams)).
Proof.
  split; [reflexivity |]. split; [reflexivity |].
  unfold outer_z_range, buildBox, cutShape.
  rewrite buildRoundedRectPrism_z_range. cbn [range_eq].
  intros [_ H]. vm_compute in H. discriminate H.
Qed.

(** C2 (amended): the rectangular base's outer solid is
    [insideHeight + bottom] high whatever [includeLid] is; only the
    cylindrical base adds [top], and only when there is no lid. *)
Theorem buildBox_outer_height (fok : wire -> bool) (p : ShapeParams) :
  range_eq (outer_z_range (buildBox fok p)) 0
    (insideHeight p + bottom (resolveThickness p)) /\
  range_eq (outer_z_range (buildCylinder p)) 0
    (insideHeight p + bottom (resolveThickness p)
     + (if includeLid p then 0 else top (resolveThickness p))).
Proof.
  split.
  - unfold outer_z_range, buildBox, cutShape.
    rewrite buildRoundedRectPrism_z_range. cbn [range_eq]. split; lra.
  - unfold outer_z_range, buildCylinder, cutShape, makeCylinderAt.
    cbn [Qeq_bool andb]. change (Qeq_bool 0 0) with true. cbn [andb z_range range_eq].
    split; lra.
Qed.

(** C3: without a lid, a rectangular build exports the base shell alone,
    and its outer solid is [insideHeight + bottom] high. *)
Theorem buildStepFile_no_lid_height (fok : wire -> bool) (p : ShapeParams) :
  shape p = box -> includeLid p = false ->
  exists base, buildStepFile fok p = StepFile base /\
    range_eq (outer_z_range base) 0 (insideHeight p + bottom (resolveThickness p)).
Proof.
  intros Hs Hl. unfold buildStepFile. rewrite Hs, Hl. cbn [ShapeType_eqb negb].
  eexists. split; [reflexivity |].
  unfold outer_z_range, buildBox, cutShape.
  rewrite buildRoundedRectPrism_z_range. cbn [range_eq]. split; lra.
Qed.

Lemma buildStepFile_no_lid_height_witness :
  (shape noLidParams = box /\ includeLid noLidParams = false) /\
  exists base, buildStepFile face_always noLidParams = StepFile base /\
    range_eq (outer_z_range base) 0
      (insideHeight noLidParams + bottom (resolveThickness noLidParams)).
Proof.
  split; [split; reflexivity |].
  apply (buildStepFile_no_lid_height face_always noLidParams); reflexivity.
Defined.

(** C7: every lid (rectangular or cylindrical) is the cut of its inner
    solid from its outer solid, translated by
    [(-(clearance + wall), -(clearance + wall), 0)]; the outer solid spans
    [z = 0 .. insideHeight + bottom + top], and so does it after the
    translation. *)
Theorem buildLid_translation_height (fok : wire -> bool) (p : ShapeParams)
    (baseOuter : Footprint) :
  let t := resolveThickness p in
  exists outer inner,
    buildLid fok p baseOuter =
      STranslate (SCut outer inner) (- (clearance p + wall t))
        (- (clearance p + wall t)) 0 /\
    range_eq (z_range outer) 0 (insideHeight p + bottom t + top t) /\
    range_eq (z_range (STranslate outer (- (clearance p + wall t))
                         (- (clearance p + wall t)) 0))
      0 (insideHeight p + bottom t + top t).
Proof.
  intro t. unfold buildLid, cutShape, translateShape. fold t.
  destruct (ShapeType_eqb (shape p) cylinder).
  - do 2 eexists. split; [reflexivity |].
    unfold makeCylinderAt at 1. change (Qeq_bool 0 0) with true. cbn [andb z_range range_eq].
    split; split; lra.
  - do 2 eexists. split; [reflexivity |].
    cbn [z_range]. rewrite buildRoundedRectPrism_z_range. cbn [range_eq].
    split; split; lra.
Qed.

(** C8: the diagnostic export yields nothing unless the shape is the
    rectangular box with rounded inside corners; then it is the export of
    the rounded inner-cavity prism alone, the very solid the base shell
    cuts away. *)
Theorem buildDebugInnerTool_spec (fok : wire -> bool) (p : ShapeParams) :
  let t := resolveThickness p in
  let tool := buildRoundedRectPrism fok (wall t) (wall t) (bottom t)
                (insideWidth p) (insideDepth p) (insideHeight p) (insideRadius p) in
  match shape p, includeInsideRadius p with
  | box, true =>
      buildDebugInnerTool fok p = Some (writeStep tool) /\
      exists outer, buildBox fok p = SCut outer tool
  | _, _ => buildDebugInnerTool fok p = None
  end.
Proof.
  intros t tool. unfold buildDebugInnerTool, buildRoundedInnerTool.
  destruct (shape p); destruct (includeInsideRadius p) eqn:Hr;
    cbn [ShapeType_eqb negb orb]; try reflexivity.
  split; [reflexivity |].
  eexists. unfold buildBox, cutShape. rewrite Hr. reflexivity.
Qed.

(** C9 (as stated, refuted): nothing evicts entries of the trace; after
    1000 [debugLog] calls in the browser it holds 1000 entries. *)
Lemma debugLog_trace_counterexample :
  match runDebugLogs true
          (repeat ("makeEdgeLine"%string, None, "2026-01-01T00:00:00.000Z"%string) 1000)
          None with
  | Some l => List.length l = 1000%nat /\ (40 < List.length l)%nat
  | None => False
  end.
Proof. vm_compute. split; [reflexivity | repeat constructor]. Qed.

(** C9 (amended): each [debugLog] call in the browser appends one entry and
    none is ever removed, so the trace grows without bound; the failure
    report shows only its last [min 40 n] entries ([slice(-40)]). *)
Theorem debugLog_trace_unbounded :
  (forall calls (l : list DebugEntry),
     runDebugLogs true calls (Some l) = Some (l ++ map toEntry calls)) /\
  (forall c calls,
     runDebugLogs true (c :: calls) None = Some (map toEntry (c :: calls))) /\
  (forall l : list DebugEntry, exists pre suf,
     l = pre ++ suf /\ List.length suf = Nat.min 40 (List.length l) /\
     failureReport (Some l) = match l with [] => None | _ => Some suf end).
Proof.
  assert (Happ : forall calls (l : list DebugEntry),
            runDebugLogs true calls (Some l) = Some (l ++ map toEntry calls)).
  { intro calls. induction calls as [| [[lbl pl] n] calls IH]; intro l.
    - cbn. rewrite app_nil_r. reflexivity.
    - cbn [runDebugLogs fold_left]. unfold runDebugLogs in IH.
      unfold debugLog at 2. cbn [negb]. rewrite IH.
      cbn [map toEntry]. rewrite <- app_assoc. reflexivity. }
  split; [exact Happ |]. split.
  - intros [[lbl pl] n] calls. cbn [runDebugLogs fold_left].
    unfold runDebugLogs in Happ. unfold debugLog at 2. rewrite Happ. reflexivity.
  - intro l. exists (firstn (List.length l - 40) l), (skipn (List.length l - 40) l).
    split; [symmetry; apply firstn_skipn |].
    split; [rewrite length_skipn; lia |].
    destruct l; reflexivity.
Qed.






(** ** URL state *)

(** Without any of the keys it reads, [parseParams] returns exactly
    [defaultParams]; other keys are ignored. *)
Theorem parseParams_no_keys (Number : string -> option Q) (q : URLSearchParams) :
  (forall k, In k paramKeys -> usp_get k q = None) ->
  parseParams Number q = defaultParams.
Proof.
  intro H. unfold parseParams.
  repeat rewrite H by (cbn; tauto). reflexivity.
Qed.

Lemma parseParams_no_keys_witness :
  (forall k, In k paramKeys -> usp_get k [("debug", "1")]%string = None) /\
  parseParams (fun _ => None) [("debug", "1")]%string = defaultParams.
Proof.
  assert (H : forall k, In k paramKeys -> usp_get k [("debug", "1")]%string = None).
  { intros k Hk. cbn in Hk.
    repeat (destruct Hk as [<- | Hk]; [reflexivity |]). destruct Hk. }
  split; [exact H |]. exact (parseParams_no_keys (fun _ => None) _ H).
Defined.

(** The two flags are on when their key is absent or its first value is
    ["1"] or ["true"]; any other value (["0"], ["false"], ["yes"], ...)
    turns them off.  The thickness mode is custom exactly when the first
    ["tmode"] value is ["custom"]. *)
Theorem parseParams_flags (Number : string -> option Q) (q : URLSearchParams) :
  (includeLid (parseParams Number q) = true <->
   usp_get "lid" q = None \/ usp_get "lid" q = Some "1"%string \/
   usp_get "lid" q = Some "true"%string) /\
  (includeInsideRadius (parseParams Number q) = true <->
   usp_get "radius" q = None \/ usp_get "radius" q = Some "1"%string \/
   usp_get "radius" q = Some "true"%string) /\
  (thicknessMode (parseParams Number q) = custom <->
   usp_get "tmode" q = Some "custom"%string).
Proof.
  unfold parseParams, readBoolean. cbn [includeLid includeInsideRadius thicknessMode].
  split; [| split].
  - destruct (usp_get "lid" q) as [v |].
    + rewrite orb_true_iff, !String.eqb_eq. split.
      * intros [-> | ->]; auto.
      * intros [H | [H | H]]; [discriminate | injection H; auto | injection H; auto].
    + split; auto.
  - destruct (usp_get "radius" q) as [v |].
    + rewrite orb_true_iff, !String.eqb_eq. split.
      * intros [-> | ->]; auto.
      * intros [H | [H | H]]; [discriminate | injection H; auto | injection H; auto].
    + split; auto.
  - destruct (usp_get "tmode" q) as [v |].
    + destruct (String.eqb v "custom") eqn:E.
      * apply String.eqb_eq in E. subst. split; reflexivity.
      * split; [discriminate |]. intro H. injection H as ->. discriminate E.
    + split; discriminate.
Qed.


Lemma roundTo_comp (x y : Q) : x == y -> roundTo x 3 == roundTo y 3.
Proof. intro H. unfold roundTo, Math_round. rewrite H. reflexivity. Qed.



Lemma usp_get_set_aux_other (k k' v : string) (seen : bool) (q : URLSearchParams) :
  k <> k' -> usp_get k (usp_set_aux k' v seen q) = usp_get k q.
Proof.
  intro Hne. revert seen. induction q as [| [k1 v1] r IH]; intro seen; [reflexivity |].
  cbn [usp_set_aux]. destruct (String.eqb k1 k') eqn:E1.
  - apply String.eqb_eq in E1. subst k1.
    assert (Hf : String.eqb k' k = false) by (apply String.eqb_neq; congruence).
    destruct seen.
    + rewrite IH. unfold usp_get. cbn [find fst]. rewrite Hf. reflexivity.
    + unfold usp_get in *. cbn [find fst]. rewrite Hf. apply IH.
  - unfold usp_get in *. cbn [find fst]. destruct (String.eqb k1 k); [reflexivity |].
    apply IH.
Qed.

Lemma usp_get_set_aux_same (k v : string) (q : URLSearchParams) :
  existsb (fun kv => String.eqb (fst kv) k) q = true ->
  usp_get k (usp_set_aux k v false q) = Some v.
Proof.
  induction q as [| [k1 v1] r IH]; [discriminate |].
  cbn [existsb fst usp_set_aux]. intro H.
  destruct (String.eqb k1 k) eqn:E1.
  - unfold usp_get. cbn [find fst]. rewrite String.eqb_refl. reflexivity.
  - cbn [orb] in H. unfold usp_get in *. cbn [find fst]. rewrite E1. apply IH, H.
Qed.

Lemma find_app_split {A} (f : A -> bool) (l1 l2 : list A) :
  find f (l1 ++ l2) = match find f l1 with Some x => Some x | None => find f l2 end.
Proof.
  induction l1 as [| a l1 IH]; [reflexivity |]. cbn. destruct (f a); [reflexivity | apply IH].
Qed.

Lemma find_none_forall {A} (f : A -> bool) (l : list A) :
  (forall x, In x l -> f x = false) -> find f l = None.
Proof.
  induction l as [| a l IH]; intro H; [reflexivity |]. cbn.
  rewrite (H a) by (left; reflexivity). apply IH. intros x Hx. apply H. right. exact Hx.
Qed.

Lemma usp_get_set (k k' v : string) (q : URLSearchParams) :
  usp_get k (usp_set k' v q) = if String.eqb k k' then Some v else usp_get k q.
Proof.
  unfold usp_set. destruct (String.eqb k k') eqn:E.
  - apply String.eqb_eq in E. subst k'.
    destruct (existsb _ q) eqn:Ex; [apply usp_get_set_aux_same, Ex |].
    unfold usp_get. rewrite find_app_split.
    assert (Hn : find (fun kv => String.eqb (fst kv) k) q = None).
    { apply find_none_forall. intros kv Hin.
      destruct (String.eqb (fst kv) k) eqn:Ek; [| reflexivity].
      assert (existsb (fun kv => String.eqb (fst kv) k) q = true)
        by (apply existsb_exists; eauto). congruence. }
    rewrite Hn. cbn. rewrite String.eqb_refl. reflexivity.
  - apply String.eqb_neq in E.
    destruct (existsb _ q); [apply usp_get_set_aux_other, E |].
    unfold usp_get. rewrite find_app_split.
    destruct (find _ q) as [[a b] |]; [reflexivity |].
    cbn. destruct (String.eqb k' k) eqn:E'; [| reflexivity].
    apply String.eqb_eq in E'. congruence.
Qed.

Lemma usp_get_setNumber (toString : Q -> string) (k k' : string) (x d : Q) (q : URLSearchParams) :
  usp_get k (setNumber toString k' x d q) =
  if String.eqb k k' && negb (Qeq_bool x d) then Some (toString (roundTo x 3))
  else usp_get k q.
Proof.
  unfold setNumber. destruct (negb (Qeq_bool x d)); rewrite ?andb_true_r, ?andb_false_r;
    [apply usp_get_set | reflexivity].
Qed.

Lemma usp_get_ifset (b : bool) (k k' v : string) (q : URLSearchParams) :
  usp_get k (if b then usp_set k' v q else q) =
  if String.eqb k k' && b then Some v else usp_get k q.
Proof.
  destruct b; rewrite ?andb_true_r, ?andb_false_r; [apply usp_get_set | reflexivity].
Qed.

Lemma readNumber_setNumber (Number : string -> option Q) (toString : Q -> string) (x d : Q) :
  Number (toString (roundTo x 3)) = Some (roundTo x 3) -> roundTo d 3 == d ->
  readNumber Number (if negb (Qeq_bool x d) then Some (toString (roundTo x 3)) else None) d
  == roundTo x 3.
Proof.
  intros HN Hd. destruct (Qeq_bool x d) eqn:E; cbn [negb readNumber].
  - apply Qeq_bool_iff in E. rewrite (roundTo_comp _ _ E), Hd. reflexivity.
  - rewrite HN. reflexivity.
Qed.

(** Writing the parameters to the query and reading them back keeps the
    flags and the mode, and gives back each number rounded to three digits,
    provided [Number] reads back what [toString] wrote for those numbers. *)
Theorem parseParams_paramsToSearch (Number : string -> option Q) (toString : Q -> string)
  (p : ShapeParams) :
  shape p = box ->
  Forall (fun x => Number (toString (roundTo x 3)) = Some (roundTo x 3)) (numericFields p) ->
  let p' := parseParams Number (paramsToSearch toString p) in
  shape p' = shape p /\ includeLid p' = includeLid p /\
  includeInsideRadius p' = includeInsideRadius p /\ thicknessMode p' = thicknessMode p /\
  Forall2 Qeq (numericFields p') (map (fun x => roundTo x 3) (numericFields p)).
Proof.
  intros Hs Hn p'. subst p'.
  unfold parseParams, paramsToSearch. cbv zeta.
  repeat first [rewrite usp_get_setNumber | rewrite usp_get_ifset].
  cbn [String.eqb Ascii.eqb Bool.eqb andb orb usp_get usp_delete filter find].
  split; [rewrite Hs; reflexivity |].
  split; [destruct (includeLid p); reflexivity |].
  split; [destruct (includeInsideRadius p); reflexivity |].
  split; [destruct (thicknessMode p); reflexivity |].
  cbn [numericFields map insideWidth insideDepth insideHeight insideRadius thickness
       wallThickness topThickness bottomThickness clearance].
  repeat apply Forall2_cons; [.. | apply Forall2_nil].
  all: apply readNumber_setNumber;
    [rewrite Forall_forall in Hn; apply Hn; cbn; tauto | vm_compute; reflexivity].
Qed.

Lemma parseParams_paramsToSearch_witness :
  shape sampleParams = box /\
  Forall (fun x => refNumber (refToString (roundTo x 3)) = Some (roundTo x 3))
    (numericFields sampleParams) /\
  (let p' := parseParams refNumber (paramsToSearch refToString sampleParams) in
   shape p' = shape sampleParams /\ includeLid p' = includeLid sampleParams /\
   includeInsideRadius p' = includeInsideRadius sampleParams /\
   thicknessMode p' = thicknessMode sampleParams /\
   Forall2 Qeq (numericFields p') (map (fun x => roundTo x 3) (numericFields sampleParams))).
Proof.
  assert (H1 : shape sampleParams = box) by reflexivity.
  assert (H2 : Forall (fun x => refNumber (refToString (roundTo x 3)) = Some (roundTo x 3))
                 (numericFields sampleParams))
    by (vm_compute; repeat constructor).
  split; [exact H1 | split; [exact H2 |]].
  exact (parseParams_paramsToSearch refNumber refToString sampleParams H1 H2).
Defined.

Lemma usp_set_not_nil (k v : string) (q : URLSearchParams) : usp_set k v q <> [].
Proof.
  unfold usp_set. destruct (existsb _ q) eqn:Ex.
  - destruct q as [| [k1 v1] r]; [discriminate Ex |]. cbn [usp_set_aux].
    destruct (String.eqb k1 k); discriminate.
  - destruct q; discriminate.
Qed.

Lemma ifset_nil (b : bool) (k v : string) (q : URLSearchParams) :
  (if b then usp_set k v q else q) = [] <-> b = false /\ q = [].
Proof.
  destruct b; split; try tauto.
  - intro H. exfalso. exact (usp_set_not_nil _ _ _ H).
  - intros [H _]. discriminate.
Qed.

Lemma setNumber_nil (toString : Q -> string) (k : string) (x d : Q) (q : URLSearchParams) :
  setNumber toString k x d q = [] <-> x == d /\ q = [].
Proof.
  unfold setNumber. rewrite <- Qeq_bool_iff.
  destruct (Qeq_bool x d); cbn [negb]; [tauto |].
  split; [intro H; destruct (usp_set_not_nil _ _ _ H) | intros [H _]; discriminate].
Qed.

Lemma ThicknessMode_eqb_iff (a b : ThicknessMode) : ThicknessMode_eqb a b = true <-> a = b.
Proof. destruct a, b; cbn; split; congruence. Qed.

(** [paramsToSearch] writes nothing exactly when every field the page can
    change has its default value (numbers compared as numbers). *)
Theorem paramsToSearch_nil_iff (toString : Q -> string) (p : ShapeParams) :
  paramsToSearch toString p = [] <->
  includeLid p = includeLid defaultParams /\
  includeInsideRadius p = includeInsideRadius defaultParams /\
  thicknessMode p = thicknessMode defaultParams /\
  Forall2 Qeq (numericFields p) (numericFields defaultParams).
Proof.
  unfold paramsToSearch. cbv zeta.
  repeat first [rewrite setNumber_nil | rewrite ifset_nil].
  rewrite !negb_false_iff, !Bool.eqb_true_iff, ThicknessMode_eqb_iff.
  unfold numericFields. rewrite !Forall2_cons_iff.
  assert (E : usp_delete "shape" [] = []) by reflexivity. rewrite E.
  assert (F : Forall2 Qeq [] [] <-> True) by (split; [tauto | constructor]). rewrite F.
  tauto.
Qed.

(** ** Planar placement *)











Lemma rect_eq_Qeq (o : option rect) (a b c d a' b' c' d' : Q) :
  rect_eq o a b c d -> a == a' -> b == b' -> c == c' -> d == d' -> rect_eq o a' b' c' d'.
Proof.
  destruct o as [[[[a0 b0] c0] d0] |]; [| contradiction].
  cbn. intros (? & ? & ? & ?) ? ? ? ?. repeat split; lra.
Qed.

Lemma rect_eq_shift (o : option rect) (a b c d dx dy : Q) :
  rect_eq o a b c d -> rect_eq (shift_rect o dx dy) (a + dx) (b + dy) (c + dx) (d + dy).
Proof.
  destruct o as [[[[a0 b0] c0] d0] |]; [| contradiction].
  cbn. intros (? & ? & ? & ?). repeat split; lra.
Qed.







Lemma cylinder_placement (radius height x y z : Q) :
  rect_eq (xy_range (makeCylinderAt radius height x y z))
    (x - radius) (y - radius) (x + radius) (y + radius) /\
  range_eq (z_range (makeCylinderAt radius height x y z)) z (z + height).
Proof.
  unfold makeCylinderAt, translateShape.
  destruct (Qeq_bool x 0 && Qeq_bool y 0 && Qeq_bool z 0) eqn:E.
  - apply andb_true_iff in E as [E E3]. apply andb_true_iff in E as [E1 E2].
    apply Qeq_bool_iff in E1, E2, E3. cbn. repeat split; lra.
  - cbn. repeat split; lra.
Qed.


Lemma makeCylinderAt_origin (radius height : Q) :
  makeCylinderAt radius height 0 0 0 = SCylinder radius height.
Proof. reflexivity. Qed.



(** The cylinder base: shell and cavity are coaxial on the Z axis, the wall
    is the difference of their radii, the cavity starts at the bottom
    thickness, and the shell rises [top] above the cavity exactly when
    there is no lid (with a lid the base is open at the top). *)
Theorem buildCylinder_extents (p : ShapeParams) :
  let t := resolveThickness p in
  let r := insideWidth p / 2 in
  rect_eq (shell_xy (buildCylinder p)) (- (r + wall t)) (- (r + wall t)) (r + wall t) (r + wall t) /\
  rect_eq (cavity_xy (buildCylinder p)) (- r) (- r) r r /\
  range_eq (cavity_z (buildCylinder p)) (bottom t) (bottom t + insideHeight p) /\
  range_eq (shell_z (buildCylinder p)) 0
    (bottom t + insideHeight p + (if includeLid p then 0 else top t)).
Proof.
  intros t r. unfold buildCylinder, cutShape. fold t. fold r.
  cbn [shell_xy cavity_xy shell_z cavity_z].
  rewrite makeCylinderAt_origin. cbn [xy_range z_range range_eq rect_eq].
  destruct (cylinder_placement r (insideHeight p) 0 0 (bottom t)) as [P1 P2].
  split; [repeat split; lra |]. split.
  - eapply rect_eq_Qeq; [exact P1 | lra ..].
  - split.
    + destruct (z_range _) as [[a b] |]; [| contradiction]. cbn in P2 |- *. lra.
    + destruct (includeLid p); split; lra.
Qed.

(** ** Displayed dimensions against the built solids *)





(** ** Kernel probing *)





(** When the kernel accepts one of the two positioned constructor forms,
    [makeBoxAt] builds the box between [(x, y, z)] and
    [(x + width, y + depth, z + height)]. *)
Theorem makeBoxAtK_positioned {A} (oc : string -> option A) (accepts : A -> box_args -> bool)
    (Ctor : A) (x y z width depth height : Q) :
  boxCtor oc = Some Ctor ->
  accepts Ctor (BoxCorners (makePnt x y z) (makePnt (x + width) (y + depth) (z + height))) = true
  \/ accepts Ctor (BoxCornerSize (makePnt x y z) width depth height) = true ->
  makeBoxAtK oc accepts x y z width depth height = Some (makeBoxAt x y z width depth height).
Proof.
  intros Hc Ha. unfold makeBoxAtK. rewrite Hc.
  destruct (accepts Ctor (BoxCorners _ _)) eqn:E1; [reflexivity |].
  destruct Ha as [Ha | Ha]; [congruence |]. rewrite Ha. reflexivity.
Qed.

Lemma makeBoxAtK_positioned_witness :
  boxCtor sizeOnlyKernel = Some tt /\
  (cornersAccepts tt (BoxCorners (makePnt 1 2 3) (makePnt (1 + 4) (2 + 5) (3 + 6))) = true
   \/ cornersAccepts tt (BoxCornerSize (makePnt 1 2 3) 4 5 6) = true) /\
  makeBoxAtK sizeOnlyKernel cornersAccepts 1 2 3 4 5 6 = Some (makeBoxAt 1 2 3 4 5 6).
Proof.
  assert (H1 : boxCtor sizeOnlyKernel = Some tt) by reflexivity.
  assert (H2 : cornersAccepts tt (BoxCorners (makePnt 1 2 3)
                 (makePnt (1 + 4) (2 + 5) (3 + 6))) = true
               \/ cornersAccepts tt (BoxCornerSize (makePnt 1 2 3) 4 5 6) = true)
    by (left; reflexivity).
  split; [exact H1 | split; [exact H2 |]].
  exact (makeBoxAtK_positioned sizeOnlyKernel cornersAccepts tt 1 2 3 4 5 6 H1 H2).
Defined.

(** When the kernel refuses both positioned forms and accepts the sizes
    alone, [makeBoxAt] returns a box at the origin: the requested position
    [(x, y, z)] is dropped. *)
Theorem makeBoxAtK_origin_fallback {A} (oc : string -> option A)
    (accepts : A -> box_args -> bool) (Ctor : A) (x y z width depth height : Q) :
  boxCtor oc = Some Ctor ->
  accepts Ctor (BoxCorners (makePnt x y z) (makePnt (x + width) (y + depth) (z + height))) = false ->
  accepts Ctor (BoxCornerSize (makePnt x y z) width depth height) = false ->
  accepts Ctor (BoxSize width depth height) = true ->
  makeBoxAtK oc accepts x y z width depth height = Some (SBox (Pnt 0 0 0) (Pnt width depth height)).
Proof.
  intros Hc H1 H2 H3. unfold makeBoxAtK. rewrite Hc, H1, H2, H3. reflexivity.
Qed.

Lemma makeBoxAtK_origin_fallback_witness :
  boxCtor sizeOnlyKernel = Some tt /\
  sizeOnlyAccepts tt (BoxCorners (makePnt 1 2 3) (makePnt (1 + 4) (2 + 5) (3 + 6))) = false /\
  sizeOnlyAccepts tt (BoxCornerSize (makePnt 1 2 3) 4 5 6) = false /\
  sizeOnlyAccepts tt (BoxSize 4 5 6) = true /\
  makeBoxAtK sizeOnlyKernel sizeOnlyAccepts 1 2 3 4 5 6 = Some (SBox (Pnt 0 0 0) (Pnt 4 5 6)).
Proof.
  assert (H1 : boxCtor sizeOnlyKernel = Some tt) by reflexivity.
  assert (H2 : sizeOnlyAccepts tt (BoxCorners (makePnt 1 2 3)
                 (makePnt (1 + 4) (2 + 5) (3 + 6))) = false) by reflexivity.
  assert (H3 : sizeOnlyAccepts tt (BoxCornerSize (makePnt 1 2 3) 4 5 6) = false)
    by reflexivity.
  assert (H4 : sizeOnlyAccepts tt (BoxSize 4 5 6) = true) by reflexivity.
  split; [exact H1 | split; [exact H2 | split; [exact H3 | split; [exact H4 |]]]].
  exact (makeBoxAtK_origin_fallback sizeOnlyKernel sizeOnlyAccepts tt 1 2 3 4 5 6 H1 H2 H3 H4).
Defined.

(** ** STEP export loop *)

Lemma fs_lookup_write_same (path data : string) (fs : FileSystem) :
  fs_lookup path (fs_write path data fs) = Some data.
Proof. unfold fs_lookup, fs_write. cbn [find fst]. rewrite String.eqb_refl. reflexivity. Qed.

Lemma fs_lookup_unlink_same (path : string) (fs : FileSystem) :
  fs_lookup path (fs_unlink path fs) = None.
Proof.
  unfold fs_lookup, fs_unlink. induction fs as [| [k v] r IH]; [reflexivity |].
  cbn [filter fst]. destruct (String.eqb k path) eqn:E; cbn [negb].
  - exact IH.
  - cbn [find fst]. rewrite E. exact IH.
Qed.

(** The outcome of [tryWrite] and the file it leaves at its target depend
    on the file system only through that target. *)
Lemma tryWriteLoop_local (resolvePath : string -> string) (sw : StepWriter) (t : string)
    (atts : list (path_variant * nat)) (fs1 fs2 : FileSystem) :
  fs_lookup (resolvePath t) fs1 = fs_lookup (resolvePath t) fs2 ->
  fst (tryWriteLoop resolvePath sw t atts fs1) = fst (tryWriteLoop resolvePath sw t atts fs2) /\
  fs_lookup (resolvePath t) (snd (tryWriteLoop resolvePath sw t atts fs1)) =
  fs_lookup (resolvePath t) (snd (tryWriteLoop resolvePath sw t atts fs2)).
Proof.
  revert fs1 fs2. induction atts as [| [v f] rest IH]; intros fs1 fs2 H; [split; [reflexivity | exact H] |].
  cbn [tryWriteLoop].
  destruct (wrote (writeCall sw f v t)) as [d |].
  - rewrite !fs_lookup_write_same.
    destruct (wout (writeCall sw f v t)) as [| st |];
      [| destruct (negb (st =? 1)%Z && negb (st =? 0)%Z) |];
      first [apply IH; rewrite !fs_lookup_write_same; reflexivity
            | split; [reflexivity | cbn [snd]; rewrite !fs_lookup_write_same; reflexivity]].
  - rewrite H.
    destruct (wout (writeCall sw f v t)) as [| st |];
      [| destruct (negb (st =? 1)%Z && negb (st =? 0)%Z) |];
      try (apply IH; exact H);
      (destruct (fs_lookup (resolvePath t) fs2) eqn:E2;
       [split; [reflexivity | cbn [snd]; congruence] | apply IH; congruence]).
Qed.

Lemma writeTargets_local (resolvePath : string -> string) (sw : StepWriter)
    (names : list string) (fs1 fs2 : FileSystem) :
  fst (writeTargets resolvePath sw names fs1) = fst (writeTargets resolvePath sw names fs2).
Proof.
  revert fs1 fs2. induction names as [| n rest IH]; intros fs1 fs2; [reflexivity |].
  cbn [writeTargets]. unfold tryWrite.
  destruct (tryWriteLoop_local resolvePath sw n (list_prod (variants sw n) (writeFns sw))
              (fs_unlink (resolvePath n) fs1) (fs_unlink (resolvePath n) fs2))
    as [H1 H2]; [rewrite !fs_lookup_unlink_same; reflexivity |].
  destruct (tryWriteLoop _ _ _ _ (fs_unlink (resolvePath n) fs1)) as [ok1 g1].
  destruct (tryWriteLoop _ _ _ _ (fs_unlink (resolvePath n) fs2)) as [ok2 g2].
  cbn [fst snd] in H1, H2. subst ok2.
  destruct ok1; [exact H2 | apply IH].
Qed.

(** The outcome of [writeStep] (the bytes returned or the error thrown)
    does not depend on the files present beforehand: each target is
    unlinked before it is written, so a file left by an earlier export is
    never read back. *)
Theorem writeStep_ignores_stale_files (resolvePath : string -> string) (sw : StepWriter)
    (fs1 fs2 : FileSystem) :
  fst (writeStepFS resolvePath sw fs1) = fst (writeStepFS resolvePath sw fs2).
Proof.
  unfold writeStepFS.
  destruct (negb (writerFound sw)); [reflexivity |].
  destruct (negb (hasTransfer sw)); [reflexivity |].
  destruct (negb (transferFirst sw || transferRetry sw)); [reflexivity |].
  pose proof (writeTargets_local resolvePath sw stepFilenames fs1 fs2) as H.
  destruct (writeTargets resolvePath sw stepFilenames fs1) as [[d1 |] g1];
  destruct (writeTargets resolvePath sw stepFilenames fs2) as [[d2 |] g2];
    cbn [fst] in H |- *; congruence.
Qed.

Lemma tryWriteLoop_provenance (resolvePath : string -> string) (sw : StepWriter) (t : string)
    (atts : list (path_variant * nat)) (fs : FileSystem) (d : string) :
  fs_lookup (resolvePath t) (snd (tryWriteLoop resolvePath sw t atts fs)) = Some d ->
  fs_lookup (resolvePath t) fs = Some d \/
  exists v f, In (v, f) atts /\ wrote (writeCall sw f v t) = Some d.
Proof.
  revert fs. induction atts as [| [v f] rest IH]; intros fs H; [left; exact H |].
  cbn [tryWriteLoop] in H.
  assert (Step : forall g, fs_lookup (resolvePath t) g = Some d ->
            (g = match wrote (writeCall sw f v t) with
                 | Some data => fs_write (resolvePath t) data fs | None => fs end) ->
            fs_lookup (resolvePath t) fs = Some d \/
            exists v' f', In (v', f') ((v, f) :: rest) /\ wrote (writeCall sw f' v' t) = Some d).
  { intros g Hg ->. destruct (wrote (writeCall sw f v t)) as [d0 |] eqn:Ew.
    - rewrite fs_lookup_write_same in Hg. injection Hg as ->.
      right. exists v, f. split; [left; reflexivity | exact Ew].
    - left. exact Hg. }
  assert (Rec : fs_lookup (resolvePath t)
                  (snd (tryWriteLoop resolvePath sw t rest
                     (match wrote (writeCall sw f v t) with
                      | Some data => fs_write (resolvePath t) data fs | None => fs end))) = Some d ->
                fs_lookup (resolvePath t) fs = Some d \/
                exists v' f', In (v', f') ((v, f) :: rest) /\ wrote (writeCall sw f' v' t) = Some d).
  { intro Hr. destruct (IH _ Hr) as [Hl | (v' & f' & Hin & Hw)].
    - exact (Step _ Hl eq_refl).
    - right. exists v', f'. split; [right; exact Hin | exact Hw]. }
  set (g := match wrote (writeCall sw f v t) with
            | Some data => fs_write (resolvePath t) data fs | None => fs end) in *.
  destruct (wout (writeCall sw f v t)) as [| st |];
    [| destruct (negb (st =? 1)%Z && negb (st =? 0)%Z) |];
    try exact (Rec H);
    (destruct (fs_lookup (resolvePath t) g) eqn:El; [exact (Step g H eq_refl) | exact (Rec H)]).
Qed.

Lemma writeTargets_provenance (resolvePath : string -> string) (sw : StepWriter)
    (names : list string) (fs fs' : FileSystem) (d : string) :
  writeTargets resolvePath sw names fs = (Some d, fs') ->
  exists target v f, In target names /\ In f (writeFns sw) /\
                     wrote (writeCall sw f v target) = Some d.
Proof.
  revert fs. induction names as [| n rest IH]; intros fs H; [discriminate |].
  cbn [writeTargets] in H. unfold tryWrite in H.
  destruct (tryWriteLoop resolvePath sw n (list_prod (variants sw n) (writeFns sw))
              (fs_unlink (resolvePath n) fs)) as [ok g] eqn:E.
  destruct ok.
  - injection H as Hd _.
    assert (Hs : fs_lookup (resolvePath n)
                   (snd (tryWriteLoop resolvePath sw n (list_prod (variants sw n) (writeFns sw))
                           (fs_unlink (resolvePath n) fs))) = Some d) by (rewrite E; exact Hd).
    destruct (tryWriteLoop_provenance _ _ _ _ _ _ Hs) as [Hl | (v & f & Hin & Hw)].
    + rewrite fs_lookup_unlink_same in Hl. discriminate.
    + apply in_prod_iff in Hin. exists n, v, f. split; [left; reflexivity | tauto].
  - destruct (IH _ H) as (target & v & f & Ht & Hf & Hw).
    exists target, v, f. split; [right; exact Ht | tauto].
Qed.

(** Bytes returned by [writeStep] were written during this export by one
    of the writer's [Write] methods to one of the three target names. *)
Theorem writeStep_output_written (resolvePath : string -> string) (sw : StepWriter)
    (fs fs' : FileSystem) (d : string) :
  writeStepFS resolvePath sw fs = (inr d, fs') ->
  exists target v f, In target stepFilenames /\ In f (writeFns sw) /\
                     wrote (writeCall sw f v target) = Some d.
Proof.
  unfold writeStepFS.
  destruct (negb (writerFound sw)); [discriminate |].
  destruct (negb (hasTransfer sw)); [discriminate |].
  destruct (negb (transferFirst sw || transferRetry sw)); [discriminate |].
  destruct (writeTargets resolvePath sw stepFilenames fs) as [[d0 |] g] eqn:E; [| discriminate].
  intro H. injection H as -> _.
  exact (writeTargets_provenance _ _ _ _ _ _ E).
Qed.

Lemma writeStep_output_written_witness :
  writeStepFS (fun path => path) (simpleWriter "ISO-10303-21;") [] =
    (inr "ISO-10303-21;"%string, [("/tmp/model.step", "ISO-10303-21;")]%string) /\
  exists target v f, In target stepFilenames /\ In f (writeFns (simpleWriter "ISO-10303-21;")) /\
    wrote (writeCall (simpleWriter "ISO-10303-21;") f v target) = Some "ISO-10303-21;"%string.
Proof.
  assert (H : writeStepFS (fun path => path) (simpleWriter "ISO-10303-21;") [] =
                (inr "ISO-10303-21;"%string, [("/tmp/model.step", "ISO-10303-21;")]%string))
    by reflexivity.
  split; [exact H |].
  exact (writeStep_output_written (fun path => path) (simpleWriter "ISO-10303-21;") [] _ _ H).
Defined.

(** Outside a browser ([typeof window === "undefined"]) [debugLog] records
    nothing: any sequence of calls leaves the trace as it was, and a
    failure then reports no trace. *)
Theorem debugLog_no_window_noop :
  forall calls (st : option (list DebugEntry)),
    runDebugLogs false calls st = st /\
    failureReport (runDebugLogs false calls None) = None.
Proof.
  assert (H : forall calls (st : option (list DebugEntry)),
             runDebugLogs false calls st = st).
  { intro calls; induction calls as [| [[l p] n] calls IH]; intro st.
    - reflexivity.
    - cbn [runDebugLogs fold_left]. unfold runDebugLogs in IH.
      apply IH. }
  intros calls st. split; [apply H |]. rewrite H. reflexivity.
Qed.
